(** * antd-overlay: imperative overlays for React, a shallow embedding

    The development follows the source files of the library:

    - [useOverlay.tsx]: the generic hook ([useOverlay], [useGlobalOverlay],
      [defaultPropsAdapter]);
    - [useModal.tsx] and [useDrawer.tsx]: the two property adapters
      ([createModalPropsAdapter], [createDrawerPropsAdapter]);
    - [AntdOverlayContext.tsx]: the provider and its registry of holders
      ([AntdOverlayProvider], [addHolder]).

    Modelling choices.

    - A JavaScript object used as a property bag is a [gmap string value].
      An object literal is evaluated member by member, left to right
      ([objectLiteral]): a spread copies the own properties of its operand
      (nothing for [undefined]), a later member overwrites an earlier one.
    - A JavaScript function stored in a property bag is a Rocq function from
      its argument to a computation in the monad [M]. A computation is the
      sequence of effects it performs (calls to the React state setters of
      the hook, calls to functions of the caller) and its outcome: a normal
      return, or a thrown [TypeError] when something that is not a function
      is called. React applies the requested state updates in the order in
      which they were requested ([commit]).
    - [animationRef.current] is the [animation] option of the latest render;
      the callbacks take it as a parameter. *)

From stdpp Require Import gmap strings list fin_maps.

Set Warnings "-register-all".
Local Open Scope string_scope.
Local Open Scope list_scope.

(** ** JavaScript values *)

(** Plain data: what a caller passes to [customOk], the flag passed to
    [afterOpenChange], the value of [maskClosable]. Numbers are the integer
    valued ones. *)
Inductive data :=
| DUndefined
| DNull
| DBool (b : bool)
| DNum (z : Z)
| DStr (s : string)
| DObj (fields : list (string * data)).

(** A value of a property bag is data or a function. The effects of a
    function are the calls it makes: to the three state setters of
    [useOverlay] ([setOpen], [setRenderEnable], [setProps]) and to functions
    owned by the caller, which are opaque and named by a handle. *)
Inductive value :=
| VData (d : data)
| VFun (f : data -> list effect * option unit)
with effect :=
| SetOpen (b : bool)
| SetRenderEnable (b : bool)
| SetProps (p : option (gmap string value))
| Call (h : string) (arg : data).

Abbreviation Props := (gmap string value).

(** ** The monad of callbacks *)

(** The effects performed so far, and [Some] result on a normal return or
    [None] when an exception was thrown. *)
Definition M (A : Type) : Type := (list effect * option A)%type.

Definition ret {A} (a : A) : M A := ([], Some a).

Definition throw {A} : M A := ([], None).

Definition emit (e : effect) : M unit := ([e], Some tt).

Definition bind {A B} (m : M A) (k : A -> M B) : M B :=
  match m with
  | (t, Some a) => let '(t', r) := k a in (t ++ t', r)
  | (t, None) => (t, None)
  end.

Notation "m >> k" := (bind m (fun _ => k))
  (at level 61, left associativity).

Definition trace {A} (m : M A) : list effect := fst m.

Definition outcome {A} (m : M A) : option A := snd m.

(** A JavaScript function. *)
Abbreviation fn := (data -> M unit).

(** ** JavaScript operators used by the source *)

(** Truthiness, as tested by [if (x)] and [!x]. *)
Definition truthy_data (d : data) : bool :=
  match d with
  | DUndefined | DNull => false
  | DBool b => b
  | DNum z => negb (z =? 0)%Z
  | DStr s => negb (String.eqb s "")
  | DObj _ => true
  end.

Definition truthy (v : value) : bool :=
  match v with
  | VData d => truthy_data d
  | VFun _ => true
  end.

(** [o.k]: reading a missing property gives [undefined]. *)
Definition get (o : Props) (k : string) : value :=
  default (VData DUndefined) (o !! k).

(** [o?.k] on a possibly undefined object. *)
Definition getOpt (o : option Props) (k : string) : value :=
  match o with
  | Some o => get o k
  | None => VData DUndefined
  end.

(** [f?.(arg)]: nothing happens when [f] is [undefined] or [null]; calling
    anything else that is not a function throws a [TypeError]. *)
Definition optcall (f : value) (arg : data) : M unit :=
  match f with
  | VFun f => f arg
  | VData DUndefined | VData DNull => ret tt
  | VData _ => throw
  end.

(** The members of an object literal. *)
Inductive member :=
| Spread (o : option Props)
| Field (k : string) (v : value).

Definition addMember (acc : Props) (m : member) : Props :=
  match m with
  | Spread o => default ∅ o ∪ acc
  | Field k v => <[k := v]> acc
  end.

Definition objectLiteral (ms : list member) : Props :=
  foldl addMember ∅ ms.

(** ** useOverlay.tsx *)

(** The argument [state] of a property adapter; [st_open] is [state.open]. *)
Record adapterState := {
  st_open : bool;
  onClose : M unit;
  onAnimationEnd : M unit;
}.

Abbreviation adapter := (option Props -> adapterState -> Props).

Definition defaultPropsAdapter (props : option Props) (state : adapterState) : Props :=
  let result := objectLiteral [
    Spread props;
    Field "open" (VData (DBool (st_open state)));
    Field "customClose" (VFun (fun _ => onClose state))
  ] in
  if truthy (get result "customOk") then
    let originalCustomOk := get result "customOk" in
    <["customOk" := VFun (fun value =>
        optcall originalCustomOk value >> onClose state)]> result
  else result.

Record UseOverlayOptions := {
  animation : option bool;
  keyPrefix : option string;
  propsAdapter : option adapter;
}.

(** [options = {}]. *)
Definition noOptions : UseOverlayOptions :=
  {| animation := None; keyPrefix := None; propsAdapter := None |}.

(** The three [useState] cells of one call of [useOverlay]. *)
Record overlayState := {
  open : bool;
  renderEnable : bool;
  props : option Props;
}.

(** [useState(false)], [useState(false)], [useState()]. *)
Definition initialState : overlayState :=
  {| open := false; renderEnable := false; props := None |}.

Definition setOpen (b : bool) : M unit := emit (SetOpen b).
Definition setRenderEnable (b : bool) : M unit := emit (SetRenderEnable b).
Definition setProps (p : option Props) : M unit := emit (SetProps p).

Definition handleClose (animationRef : bool) : M unit :=
  if animationRef then setOpen false else setRenderEnable false.

Definition handleAnimationEnd (animationRef : bool) : M unit :=
  if animationRef then setRenderEnable false else ret tt.

Record OverlayController := {
  update : Props -> M unit;
  close : M unit;
}.

(** The object returned by [openOverlay]. *)
Definition overlayController (animationRef : bool) : OverlayController :=
  {| update := fun newProps => setProps (Some newProps);
     close := handleClose animationRef |}.

Definition openOverlay (animationRef : bool) (initializeProps : option Props)
  : M OverlayController :=
  setRenderEnable true >>
  setOpen true >>
  setProps initializeProps >>
  ret (overlayController animationRef).

(** React nodes. A component is opaque and named. *)
Abbreviation component := string.

Inductive node :=
| NFragment (key : string)
| NElement (c : component) (key : string) (p : Props)
| NArray (items : list node)
| NProvider (children : list node).

Definition contextHolder (OverlayComponent : component) (key : string)
    (propsAdapter : adapter) (animationRef : bool) (s : overlayState) : node :=
  if negb (renderEnable s) then NFragment key
  else
    let realProps := propsAdapter (props s) {|
      st_open := open s;
      onClose := handleClose animationRef;
      onAnimationEnd := handleAnimationEnd animationRef;
    |} in
    NElement OverlayComponent key realProps.

(** *** How React applies the state updates *)

Definition apply (s : overlayState) (e : effect) : overlayState :=
  match e with
  | SetOpen b => {| open := b; renderEnable := renderEnable s; props := props s |}
  | SetRenderEnable b => {| open := open s; renderEnable := b; props := props s |}
  | SetProps p => {| open := open s; renderEnable := renderEnable s; props := p |}
  | Call _ _ => s
  end.

Definition commit (t : list effect) (s : overlayState) : overlayState :=
  foldl apply s t.

(** The state after a callback has run. *)
Definition exec {A} (m : M A) (s : overlayState) : overlayState :=
  commit (trace m) s.

(** *** The hook as a function of the render *)

(** What a render of the calling component can touch: the identifier given by
    [useId], the state cells of [useOverlay] (absent until the first render
    creates them) and the effects handed to [useEffect]. *)
Inductive registryOp :=
| AddHolder (holder : node)
| RemoveHolder (holder : node).

Record effectHook := {
  effectRun : registryOp;
  effectCleanup : registryOp;
}.

Record fiber := {
  fiberId : string;
  cells : option overlayState;
  effects : list effectHook;
}.

(** A render returns a result or throws an [Error] with a message; the fiber
    it leaves behind is returned in both cases. *)
Definition Render (A : Type) : Type := fiber -> fiber * (string + A).

Abbreviation OverlayOpener := (option Props -> M OverlayController).

Definition useOverlay (OverlayComponent : component) (options : UseOverlayOptions)
  : Render (OverlayOpener * node) := fun fb =>
  let animation := default true (animation options) in
  let keyPrefix := default "use-overlay" (keyPrefix options) in
  let propsAdapter := default defaultPropsAdapter (propsAdapter options) in
  let id := fiberId fb in
  let key := keyPrefix +:+ "-" +:+ id in
  let s := default initialState (cells fb) in
  let holder := contextHolder OverlayComponent key propsAdapter animation s in
  ({| fiberId := id; cells := Some s; effects := effects fb |},
   inr (openOverlay animation, holder)).

(** ** AntdOverlayContext.tsx *)

Record AntdOverlayContextValue := {
  holders : list node;
  defaultModalProps : option Props;
  defaultDrawerProps : option Props;
}.

(** [useContext(AntdOverlayContext)]: the value of the nearest provider, or
    the default [null] of [createContext] when there is none. *)
Definition useAntdOverlayContext (provider : option AntdOverlayContextValue)
  : option AntdOverlayContextValue := provider.

(** [setHolders((prev) => [...prev, holder])]. *)
Definition addHolder (holder : node) (prev : list node) : list node :=
  prev ++ [holder].

(** The holders after the registrations [ps], in this order. *)
Definition registerAll (ps : list node) (prev : list node) : list node :=
  foldl (fun holders holder => addHolder holder holders) prev ps.

(** The element returned by the provider: [children], then [holders]. *)
Definition AntdOverlayProvider (children : node) (holders : list node) : node :=
  NProvider [children; NArray holders].

(** The leaves of a tree of nodes in the order in which React renders them. *)
Fixpoint paint (n : node) : list node :=
  match n with
  | NFragment _ | NElement _ _ _ => [n]
  | NArray items => concat (map paint items)
  | NProvider children => concat (map paint children)
  end.

(** ** useOverlay.tsx, continued: the global variant *)

Definition missingProviderMessage : string :=
  "useGlobalOverlay must be used within an AntdOverlayProvider. " +:+
  "Please wrap your application with <AntdOverlayProvider>.".

Definition useGlobalOverlay (provider : option AntdOverlayContextValue)
    (OverlayComponent : component) (options : UseOverlayOptions)
  : Render OverlayOpener := fun fb =>
  let context := useAntdOverlayContext provider in
  match context with
  | None => (fb, inl missingProviderMessage)
  | Some _ =>
    match useOverlay OverlayComponent options fb with
    | (fb, inl e) => (fb, inl e)
    | (fb, inr (openOverlay, contextHolder)) =>
      ({| fiberId := fiberId fb; cells := cells fb;
          effects := effects fb ++ [{|
            effectRun := AddHolder contextHolder;
            effectCleanup := RemoveHolder contextHolder |}] |},
       inr openOverlay)
    end
  end.

(** ** useModal.tsx *)

Definition createModalPropsAdapter (defaultProps : option Props) : adapter :=
  fun props state =>
  let result := objectLiteral [
    Spread defaultProps;
    Spread props;
    Field "open" (VData (DBool (st_open state)));
    Field "customClose" (VFun (fun _ => onClose state));
    Field "afterClose" (VFun (fun _ =>
      optcall (getOpt props "afterClose") DUndefined >>
      onAnimationEnd state))
  ] in
  if truthy (get result "customOk") then
    let originalCustomOk := get result "customOk" in
    <["customOk" := VFun (fun value =>
        optcall originalCustomOk value >> onClose state)]> result
  else result.

(** [UseModalOptions] and [UseDrawerOptions] keep only [animation]. *)
Definition useModal (provider : option AntdOverlayContextValue)
    (ModalComponent : component) (animation : option bool)
  : Render (OverlayOpener * node) :=
  let context := useAntdOverlayContext provider in
  let propsAdapter := createModalPropsAdapter (context ≫= defaultModalProps) in
  useOverlay ModalComponent {|
    animation := animation;
    keyPrefix := Some "use-modal";
    propsAdapter := Some propsAdapter |}.

(** ** useDrawer.tsx *)

Definition createDrawerPropsAdapter : adapter :=
  fun props state =>
  let result := objectLiteral [
    Field "maskClosable" (VData (DBool false));
    Spread props;
    Field "open" (VData (DBool (st_open state)));
    Field "customClose" (VFun (fun _ => onClose state));
    Field "afterOpenChange" (VFun (fun open =>
      optcall (getOpt props "afterOpenChange") open >>
      if negb (truthy_data open) then onAnimationEnd state else ret tt))
  ] in
  if truthy (get result "customOk") then
    let originalCustomOk := get result "customOk" in
    <["customOk" := VFun (fun value =>
        optcall originalCustomOk value >> onClose state)]> result
  else result.

Definition useDrawer (DrawerComponent : component) (animation : option bool)
  : Render (OverlayOpener * node) :=
  useOverlay DrawerComponent {|
    animation := animation;
    keyPrefix := Some "use-drawer";
    propsAdapter := Some createDrawerPropsAdapter |}.

(** ** The lifecycle as a transition system *)

(** The four operations of a call site: the opener, the two functions of the
    controller it returns, and the signal that the closing animation of the
    component has ended. *)
Inductive op :=
| Open (initializeProps : option Props)
| Update (newProps : Props)
| RequestClose
| NotifyAnimationDone.

Definition perform (animationRef : bool) (o : op) : M unit :=
  match o with
  | Open initializeProps => openOverlay animationRef initializeProps >> ret tt
  | Update newProps => update (overlayController animationRef) newProps
  | RequestClose => close (overlayController animationRef)
  | NotifyAnimationDone => handleAnimationEnd animationRef
  end.

Definition step (animationRef : bool) (s : overlayState) (o : op) : overlayState :=
  exec (perform animationRef o) s.

Definition run (animationRef : bool) (ops : list op) (s : overlayState)
  : overlayState :=
  foldl (step animationRef) s ops.

(** The value of [animationRef.current] under given options. *)
Definition animationOf (options : UseOverlayOptions) : bool :=
  default true (animation options).

(** A function of the caller that does nothing but get called. *)
Definition spy (h : string) : fn := fun arg => emit (Call h arg).

(** The arguments of the calls made to the function of handle [h]. *)
Definition callsTo (h : string) (t : list effect) : list data :=
  omap (fun e => match e with
                 | Call h' arg => if String.eqb h h' then Some arg else None
                 | _ => None
                 end) t.

(** The end of the animation is signalled only while [open] is false: the
    discipline asked of an adapter, which is to call [onAnimationEnd] when a
    closing animation has ended and not when an opening one has. *)
Definition isDone (o : op) : bool :=
  match o with NotifyAnimationDone => true | _ => false end.

Fixpoint doneOnlyWhenClosed (animationRef : bool) (s : overlayState)
    (ops : list op) : bool :=
  match ops with
  | [] => true
  | o :: ops =>
    implb (isDone o) (negb (open s))
    && doneOnlyWhenClosed animationRef (step animationRef s o) ops
  end.

Definition unmountedImpliesClosed (s : overlayState) : Prop :=
  renderEnable s = false -> open s = false.

(** The three adapters of the library. *)
Inductive adapterKind :=
| DefaultAdapter
| ModalAdapter (defaultProps : option Props)
| DrawerAdapter.

Definition adapterOf (k : adapterKind) : adapter :=
  match k with
  | DefaultAdapter => defaultPropsAdapter
  | ModalAdapter defaultProps => createModalPropsAdapter defaultProps
  | DrawerAdapter => createDrawerPropsAdapter
  end.

(** ** The rest of the library *)

(** *** AntdOverlayContext.tsx: deregistration and the context value *)

(** [setHolders((prev) => prev.filter((h) => h !== holder))]. The operator
    [!==] compares React nodes by identity; the identity test [same] is a
    parameter of the model. *)
Definition removeHolder (same : node -> node -> bool) (holder : node)
    (prev : list node) : list node :=
  List.filter (fun h => negb (same h holder)) prev.

(** What the functions [addHolder] and [removeHolder] of the context do to
    the holders of the provider. *)
Definition applyRegistryOp (same : node -> node -> bool) (o : registryOp)
    (holders : list node) : list node :=
  match o with
  | AddHolder holder => addHolder holder holders
  | RemoveHolder holder => removeHolder same holder holders
  end.

(** The effect of [useGlobalOverlay] and the function it returns for its
    cleanup. *)
Definition runEffect (same : node -> node -> bool) (e : effectHook)
    (holders : list node) : list node :=
  applyRegistryOp same (effectRun e) holders.

Definition cleanupEffect (same : node -> node -> bool) (e : effectHook)
    (holders : list node) : list node :=
  applyRegistryOp same (effectCleanup e) holders.

(** The [value] that [AntdOverlayProvider] hands to its context. *)
Definition providerValue (holders : list node)
    (defaultModalProps defaultDrawerProps : option Props)
  : AntdOverlayContextValue :=
  {| holders := holders;
     defaultModalProps := defaultModalProps;
     defaultDrawerProps := defaultDrawerProps |}.

(** The [key] of a node. *)
Definition nodeKey (n : node) : option string :=
  match n with
  | NFragment key | NElement _ key _ => Some key
  | NArray _ | NProvider _ => None
  end.

(** An identity test for the holders of different call sites, which carry
    different keys. *)
Definition sameKey (n m : node) : bool :=
  match nodeKey n, nodeKey m with
  | Some key, Some key' => String.eqb key key'
  | _, _ => false
  end.

(** *** useModal.tsx and useDrawer.tsx: the global variants *)

Definition useGlobalModal (provider : option AntdOverlayContextValue)
    (ModalComponent : component) (animation : option bool)
  : Render OverlayOpener :=
  let context := useAntdOverlayContext provider in
  let propsAdapter := createModalPropsAdapter (context ≫= defaultModalProps) in
  useGlobalOverlay provider ModalComponent {|
    animation := animation;
    keyPrefix := Some "use-modal";
    propsAdapter := Some propsAdapter |}.

Definition useGlobalDrawer (provider : option AntdOverlayContextValue)
    (DrawerComponent : component) (animation : option bool)
  : Render OverlayOpener :=
  useGlobalOverlay provider DrawerComponent {|
    animation := animation;
    keyPrefix := Some "use-drawer";
    propsAdapter := Some createDrawerPropsAdapter |}.

(** *** useOverlay.tsx: generateUseOverlayHook *)






Module Generated.


End Generated.


(** The holder that a render of a local hook returns, unless it threw. *)
Definition holderOf (r : fiber * (string + (OverlayOpener * node)))
  : option node :=
  match snd r with
  | inr (_, holder) => Some holder
  | inl _ => None
  end.

(** React applies the state updates that a callback has requested to the
    cells of the call site, to be read by the next render. *)
Definition commitToFiber {A} (m : M A) (fb : fiber) : fiber :=
  {| fiberId := fiberId fb;
     cells := Some (exec m (default initialState (cells fb)));
     effects := effects fb |}.

(** *** Predicates on operations *)

Definition isOpen (o : op) : bool :=
  match o with Open _ => true | _ => false end.

(** The operations that are not given properties. *)
Definition carriesNoProps (o : op) : bool :=
  match o with
  | RequestClose | NotifyAnimationDone => true
  | Open _ | Update _ => false
  end.

(** No holder of the list is identical to [holder]. *)
Definition absent (same : node -> node -> bool) (holder : node)
    (holders : list node) : bool :=
  forallb (fun h => negb (same h holder)) holders.

(** * Properties *)

(** ** The lifecycle *)

Section Lifecycle.

Implicit Types (s : overlayState) (o : op) (ops : list op).

Lemma step_Open animationRef s initializeProps :
  step animationRef s (Open initializeProps)
  = {| open := true; renderEnable := true; props := initializeProps |}.
Proof. reflexivity. Qed.

Lemma step_Update animationRef s newProps :
  step animationRef s (Update newProps)
  = {| open := open s; renderEnable := renderEnable s; props := Some newProps |}.
Proof. reflexivity. Qed.

Lemma step_RequestClose animationRef s :
  step animationRef s RequestClose
  = if animationRef
    then {| open := false; renderEnable := renderEnable s; props := props s |}
    else {| open := open s; renderEnable := false; props := props s |}.
Proof. by destruct animationRef. Qed.

Lemma step_NotifyAnimationDone animationRef s :
  step animationRef s NotifyAnimationDone
  = if animationRef
    then {| open := open s; renderEnable := false; props := props s |}
    else s.
Proof. by destruct animationRef. Qed.

Lemma run_cons animationRef o ops s :
  run animationRef (o :: ops) s = run animationRef ops (step animationRef s o).
Proof. reflexivity. Qed.

(** With animation, only the end of the animation unmounts. *)
Lemma animated_step_keeps_mounted s o :
  renderEnable s = true -> o ≠ NotifyAnimationDone ->
  renderEnable (step true s o) = true.
Proof. intros Hs Ho. by destruct o. Qed.

Lemma animated_run_unmounts_by_signal ops : forall s,
  renderEnable s = true ->
  renderEnable (run true ops s) = false ->
  NotifyAnimationDone ∈ ops.
Proof.
  induction ops as [|o ops IH]; intros s Hs Hrun.
  - simpl in Hrun. congruence.
  - rewrite run_cons in Hrun.
    destruct o; try (right; eapply IH; [|exact Hrun];
                     by apply animated_step_keeps_mounted).
    left.
Qed.

Lemma animated_run_invariant ops : forall s,
  unmountedImpliesClosed s ->
  doneOnlyWhenClosed true s ops = true ->
  unmountedImpliesClosed (run true ops s).
Proof.
  induction ops as [|o ops IH]; intros s Hs Hops; [exact Hs|].
  simpl in Hops. apply andb_prop in Hops as [Ho Hops].
  rewrite run_cons. apply IH; [|exact Hops].
  unfold unmountedImpliesClosed in *.
  destruct o; simpl in *; try done.
  intros _. by destruct (open s).
Qed.

End Lifecycle.

(** C1. With animation (the default), closing has two phases: from a mounted
    and open overlay [handleClose] sets [open] to false and leaves the
    overlay mounted; afterwards no sequence of operations unmounts it unless
    it contains the end of the animation, and [handleAnimationEnd] does
    unmount it. *)
Theorem animated_close_two_phase (options : UseOverlayOptions) (s : overlayState) :
  animationOf options = true ->
  open s = true -> renderEnable s = true ->
  animationOf noOptions = true /\
  let closing := exec (handleClose (animationOf options)) s in
  open closing = false /\ renderEnable closing = true /\
  props closing = props s /\
  (forall ops, renderEnable (run (animationOf options) ops closing) = false ->
               NotifyAnimationDone ∈ ops) /\
  renderEnable (exec (handleAnimationEnd (animationOf options)) closing) = false /\
  open (exec (handleAnimationEnd (animationOf options)) closing) = false.
Proof.
  intros -> Hopen Hmounted. simpl.
  repeat split; try done.
  intros ops. by apply animated_run_unmounts_by_signal.
Qed.

Lemma animated_close_two_phase_witness :
  let s := {| open := true; renderEnable := true; props := Some ∅ |} in
  let closing := exec (handleClose (animationOf noOptions)) s in
  open closing = false /\ renderEnable closing = true /\
  renderEnable (exec (handleAnimationEnd (animationOf noOptions)) closing) = false.
Proof.
  pose proof (animated_close_two_phase noOptions
    {| open := true; renderEnable := true; props := Some ∅ |}
    eq_refl eq_refl eq_refl) as (_ & H1 & H2 & _ & _ & H3 & _).
  exact (conj H1 (conj H2 H3)).
Defined.

(** C2, as stated, fails: without animation [handleClose] only calls
    [setRenderEnable(false)], the flag [open] keeps its value. *)
Lemma unanimated_close_leaves_open_flag :
  let s := {| open := true; renderEnable := true; props := None |} in
  open s = true /\ renderEnable s = true /\
  renderEnable (exec (handleClose false) s) = false /\
  open (exec (handleClose false) s) ≠ false.
Proof. by repeat split. Qed.

(** C2, amended. Without animation, closing has one phase: from a mounted and
    open overlay [handleClose] makes the single call [setRenderEnable(false)],
    which unmounts the overlay at once, whatever the animation signal does;
    [open] and [props] keep their values. *)
Theorem unanimated_close_one_phase (options : UseOverlayOptions) (s : overlayState) :
  animationOf options = false ->
  open s = true -> renderEnable s = true ->
  let closed := exec (handleClose (animationOf options)) s in
  trace (handleClose (animationOf options)) = [SetRenderEnable false] /\
  renderEnable closed = false /\ open closed = true /\ props closed = props s /\
  exec (handleAnimationEnd (animationOf options)) closed = closed.
Proof. intros -> Hopen Hmounted. simpl. by repeat split. Qed.

Lemma unanimated_close_one_phase_witness :
  let options := {| animation := Some false; keyPrefix := None; propsAdapter := None |} in
  let s := {| open := true; renderEnable := true; props := None |} in
  renderEnable (exec (handleClose (animationOf options)) s) = false /\
  open (exec (handleClose (animationOf options)) s) = true.
Proof.
  pose proof (unanimated_close_one_phase
    {| animation := Some false; keyPrefix := None; propsAdapter := None |}
    {| open := true; renderEnable := true; props := None |}
    eq_refl eq_refl eq_refl) as (_ & H1 & H2 & _).
  exact (conj H1 H2).
Defined.

(** C3, as stated, fails under both settings: without animation after
    open then close, with animation when the animation signal arrives while
    the overlay is open. *)
Lemma unmounted_but_open_reachable :
  (let s := run false [Open None; RequestClose] initialState in
   renderEnable s = false /\ open s = true) /\
  (let s := run true [Open None; NotifyAnimationDone] initialState in
   renderEnable s = false /\ open s = true).
Proof. by repeat split. Qed.

(** C3, amended. With animation, along every sequence of the four operations
    in which the end of the animation is signalled only while [open] is
    false, every state reached from the initial one satisfies: not mounted
    implies not open. *)
Theorem animated_unmounted_implies_closed (ops : list op) :
  doneOnlyWhenClosed true initialState ops = true ->
  let s := run true ops initialState in
  renderEnable s = false -> open s = false.
Proof.
  intros Hops. apply (animated_run_invariant ops initialState); [done|exact Hops].
Qed.

Lemma animated_unmounted_implies_closed_witness :
  let ops := [Open None; Update ∅; RequestClose; NotifyAnimationDone] in
  renderEnable (run true ops initialState) = false /\
  open (run true ops initialState) = false.
Proof.
  split; [reflexivity|].
  exact (animated_unmounted_implies_closed
    [Open None; Update ∅; RequestClose; NotifyAnimationDone] eq_refl eq_refl).
Defined.

(** C4. [update] replaces the stored properties, it does not merge: after
    two updates through the controller of a session the stored properties
    are exactly those of the second one; after [update({a:1})] and
    [update({b:2})] they are [{b:2}], without the key [a]. *)
Theorem update_replaces_properties (animationRef : bool)
    (initializeProps : option Props) (s : overlayState) (p1 p2 : Props) :
  exists controller,
    outcome (openOverlay animationRef initializeProps) = Some controller /\
    let session := exec (openOverlay animationRef initializeProps) s in
    let a1 : Props := {["a" := VData (DNum 1)]} in
    let b2 : Props := {["b" := VData (DNum 2)]} in
    props (exec (update controller p1 >> update controller p2) session) = Some p2 /\
    props (exec (update controller a1 >> update controller b2) session) = Some b2 /\
    b2 !! "a" = None /\ b2 !! "b" = Some (VData (DNum 2)).
Proof.
  exists (overlayController animationRef). by repeat split.
Qed.

(** C10. Calling the opener while an animated close is in flight (not open,
    still mounted) starts a new session at once: the overlay is mounted and
    open and the stored properties are the arguments of the new call, as
    after opening from the initial state; the end of the animation is not
    waited for. *)
Theorem reopen_while_closing (animationRef : bool) (s : overlayState)
    (initializeProps : option Props) :
  open s = false -> renderEnable s = true ->
  trace (openOverlay animationRef initializeProps)
  = [SetRenderEnable true; SetOpen true; SetProps initializeProps] /\
  exec (openOverlay animationRef initializeProps) s
  = {| open := true; renderEnable := true; props := initializeProps |} /\
  exec (openOverlay animationRef initializeProps) s
  = exec (openOverlay animationRef initializeProps) initialState.
Proof. by repeat split. Qed.

Lemma reopen_while_closing_witness :
  let mounted := {| open := true; renderEnable := true;
                    props := Some {["title" := VData (DStr "x")]} |} in
  let closing := exec (handleClose true) mounted in
  let again := Some ({["title" := VData (DStr "y")]} : Props) in
  open closing = false /\ renderEnable closing = true /\
  exec (openOverlay true again) closing
  = {| open := true; renderEnable := true; props := again |}.
Proof.
  split; [reflexivity|]. split; [reflexivity|].
  exact (proj1 (proj2 (reopen_while_closing true
    (exec (handleClose true)
       {| open := true; renderEnable := true;
          props := Some {["title" := VData (DStr "x")]} |})
    (Some {["title" := VData (DStr "y")]}) eq_refl eq_refl))).
Defined.

(** ** The property adapters *)

Section Adapters.

Implicit Types (p : Props) (props defaultProps : option Props)
  (state : adapterState) (k : adapterKind).

(** [M] is a monad. *)
Lemma bind_ret_l {A} (m : M A) : (ret tt >> m) = m.
Proof. by destruct m as [t r]. Qed.

Lemma bind_ret_r (m : M unit) : (m >> ret tt) = m.
Proof.
  destruct m as [t [[]|]]; [|done]. simpl. by rewrite app_nil_r.
Qed.

Lemma bind_assoc {A B C} (m : M A) (f : A -> M B) (g : B -> M C) :
  bind (bind m f) g = bind m (fun a => bind (f a) g).
Proof.
  destruct m as [t [a|]]; [|done]. simpl.
  destruct (f a) as [t1 [b|]]; [|done]. simpl.
  destruct (g b) as [t2 r]. by rewrite app_assoc.
Qed.

Lemma get_insert_ne p (key key' : string) v :
  key ≠ key' -> get (<[key := v]> p) key' = get p key'.
Proof. intros H. unfold get. by rewrite lookup_insert_ne. Qed.

Lemma get_union_insert p q (key : string) v :
  get (<[key := v]> p ∪ q) key = v.
Proof.
  unfold get. by rewrite (lookup_union_Some_l _ _ _ v (lookup_insert_eq _ _ _)).
Qed.

(** The object built by each adapter before it looks at [customOk]
    holds the [customOk] of the caller. *)
Ltac through_fields :=
  unfold objectLiteral; simpl;
  repeat (rewrite get_insert_ne by done).

Lemma wrapped_customOk k p (customOk : fn) state :
  exists wrapped,
    adapterOf k (Some (<["customOk" := VFun customOk]> p)) state !! "customOk"
    = Some (VFun wrapped) /\
    forall value, wrapped value = (customOk value >> onClose state).
Proof.
  destruct k as [|defaultProps|]; simpl;
    [unfold defaultPropsAdapter
    |unfold createModalPropsAdapter
    |unfold createDrawerPropsAdapter];
    through_fields; rewrite !get_union_insert; simpl;
    rewrite lookup_insert_eq; eexists; (split; [reflexivity|done]).
Qed.

End Adapters.

(** A computation that returns, followed by another one. *)
Lemma bind_returns {B} (m : M unit) (k : M B) :
  outcome m = Some tt -> (m >> k) = (trace m ++ trace k, outcome k).
Proof. destruct m as [t [[]|]], k as [t' r]; by intros [=]. Qed.

Lemma callsTo_app (h : string) (t t' : list effect) :
  callsTo h (t ++ t') = callsTo h t ++ callsTo h t'.
Proof. apply omap_app. Qed.

(** C5, as stated, fails for a confirm callback that throws: no adapter
    guards the call, so [onClose] is then not reached. For each adapter, with
    a callback that records its call and throws and an [onClose] that records
    its call, the wrapped [customOk] throws after the call of the callback
    and [onClose] has been called zero times. *)
Lemma throwing_confirm_closes_zero_times :
  let failing : fn := fun value => spy "ok" value >> throw in
  let state := {| st_open := true; onClose := spy "close" DUndefined;
                  onAnimationEnd := ret tt |} in
  outcome (failing (DNum 7)) = None /\
  (exists wrapped,
     defaultPropsAdapter (Some {["customOk" := VFun failing]}) state !! "customOk"
     = Some (VFun wrapped) /\
     wrapped (DNum 7) = ([Call "ok" (DNum 7)], None) /\
     callsTo "close" (trace (wrapped (DNum 7))) = []) /\
  (exists wrapped,
     createModalPropsAdapter None (Some {["customOk" := VFun failing]}) state
       !! "customOk" = Some (VFun wrapped) /\
     wrapped (DNum 7) = ([Call "ok" (DNum 7)], None) /\
     callsTo "close" (trace (wrapped (DNum 7))) = []) /\
  (exists wrapped,
     createDrawerPropsAdapter (Some {["customOk" := VFun failing]}) state
       !! "customOk" = Some (VFun wrapped) /\
     wrapped (DNum 7) = ([Call "ok" (DNum 7)], None) /\
     callsTo "close" (trace (wrapped (DNum 7))) = []).
Proof.
  intros failing state. split; [reflexivity|].
  pose proof (wrapped_customOk DefaultAdapter ∅ failing state) as (w1 & K1 & W1).
  pose proof (wrapped_customOk (ModalAdapter None) ∅ failing state)
    as (w2 & K2 & W2).
  pose proof (wrapped_customOk DrawerAdapter ∅ failing state) as (w3 & K3 & W3).
  split; [exists w1; by rewrite W1|].
  split; [exists w2; by rewrite W2|exists w3; by rewrite W3].
Qed.

(** C5, amended. For each of the three adapters, every confirm callback of
    the caller and every value on which that callback returns normally: the
    [customOk] handed to the component does what the callback does on that
    value, once, and then what [onClose] does, once, and ends as [onClose]
    ends. With an [onClose] that only records its call, the wrapped callback
    calls it exactly once more than the callback itself did; with a callback
    that only records its call as well, the wrapped callback makes exactly
    two calls: the caller's with the value, then [onClose]. *)
Theorem returning_confirm_forwards_once_closes_once (k : adapterKind)
    (p : Props) (customOk : fn) (value : data) :
  outcome (customOk value) = Some tt ->
  (forall state : adapterState,
     exists wrapped,
       adapterOf k (Some (<["customOk" := VFun customOk]> p)) state !! "customOk"
       = Some (VFun wrapped) /\
       wrapped value = (customOk value >> onClose state) /\
       trace (wrapped value) = trace (customOk value) ++ trace (onClose state) /\
       outcome (wrapped value) = outcome (onClose state)) /\
  (forall (hc : string) (isOpen : bool) (onAnimationEnd : M unit),
     exists wrapped,
       adapterOf k (Some (<["customOk" := VFun customOk]> p))
         {| st_open := isOpen; onClose := spy hc DUndefined;
            onAnimationEnd := onAnimationEnd |} !! "customOk"
       = Some (VFun wrapped) /\
       outcome (wrapped value) = Some tt /\
       callsTo hc (trace (wrapped value))
       = callsTo hc (trace (customOk value)) ++ [DUndefined]) /\
  (forall (h hc : string) (isOpen : bool) (onAnimationEnd : M unit),
     exists wrapped,
       adapterOf k (Some (<["customOk" := VFun (spy h)]> p))
         {| st_open := isOpen; onClose := spy hc DUndefined;
            onAnimationEnd := onAnimationEnd |} !! "customOk"
       = Some (VFun wrapped) /\
       wrapped value = ([Call h value; Call hc DUndefined], Some tt)).
Proof.
  intros Hreturns. split; [|split].
  - intros state.
    destruct (wrapped_customOk k p customOk state) as (wrapped & Hk & Hw).
    exists wrapped. split; [exact Hk|]. split; [apply Hw|].
    by rewrite Hw, bind_returns.
  - intros hc isOpen onAnimationEnd.
    destruct (wrapped_customOk k p customOk
      {| st_open := isOpen; onClose := spy hc DUndefined;
         onAnimationEnd := onAnimationEnd |}) as (wrapped & Hk & Hw).
    exists wrapped. split; [exact Hk|].
    rewrite Hw, bind_returns by done. split; [done|].
    unfold trace at 1. simpl. rewrite callsTo_app. simpl.
    by rewrite String.eqb_refl.
  - intros h hc isOpen onAnimationEnd.
    destruct (wrapped_customOk k p (spy h)
      {| st_open := isOpen; onClose := spy hc DUndefined;
         onAnimationEnd := onAnimationEnd |}) as (wrapped & Hk & Hw).
    exists wrapped. by rewrite Hw.
Qed.

Lemma returning_confirm_forwards_once_closes_once_witness :
  let state := {| st_open := true; onClose := spy "close" DUndefined;
                  onAnimationEnd := ret tt |} in
  exists wrapped,
    adapterOf (ModalAdapter None)
      (Some (<["customOk" := VFun (spy "ok")]> ∅)) state !! "customOk"
    = Some (VFun wrapped) /\
    wrapped (DStr "y") = (spy "ok" (DStr "y") >> onClose state) /\
    trace (wrapped (DStr "y")) = [Call "ok" (DStr "y"); Call "close" DUndefined] /\
    outcome (wrapped (DStr "y")) = Some tt.
Proof.
  exact (proj1 (returning_confirm_forwards_once_closes_once (ModalAdapter None)
    ∅ (spy "ok") (DStr "y") eq_refl)
    {| st_open := true; onClose := spy "close" DUndefined;
       onAnimationEnd := ret tt |}).
Defined.

Section MaskClosable.

Implicit Types (p : Props) (props defaultProps : option Props)
  (state : adapterState).

Lemma lookup_spread_union props (acc : Props) (key : string) :
  (default ∅ props ∪ acc) !! key
  = match props ≫= (.!! key) with
    | Some v => Some v
    | None => acc !! key
    end.
Proof.
  rewrite lookup_union. destruct props as [p|]; simpl.
  - by destruct (p !! key), (acc !! key).
  - rewrite lookup_empty. by destruct (acc !! key).
Qed.

Lemma drawer_maskClosable props state :
  createDrawerPropsAdapter props state !! "maskClosable"
  = match props ≫= (.!! "maskClosable") with
    | Some v => Some v
    | None => Some (VData (DBool false))
    end.
Proof.
  unfold createDrawerPropsAdapter, objectLiteral. simpl.
  match goal with |- context [truthy ?v] => destruct (truthy v) end;
    rewrite !lookup_insert_ne by done;
    by rewrite lookup_spread_union, lookup_insert_eq.
Qed.

Lemma modal_maskClosable defaultProps props state :
  createModalPropsAdapter defaultProps props state !! "maskClosable"
  = match props ≫= (.!! "maskClosable") with
    | Some v => Some v
    | None => defaultProps ≫= (.!! "maskClosable")
    end.
Proof.
  unfold createModalPropsAdapter, objectLiteral. simpl.
  match goal with |- context [truthy ?v] => destruct (truthy v) end;
    rewrite !lookup_insert_ne by done;
    rewrite !lookup_spread_union, lookup_empty;
    by destruct (defaultProps ≫= _).
Qed.

End MaskClosable.

(** C6, as stated, fails for the Modal adapter: it has no default of its own
    for [maskClosable]. Without defaults from the provider and without a
    value from the caller the property is absent. *)
Lemma modal_sets_no_maskClosable :
  let state := {| st_open := true; onClose := handleClose true;
                  onAnimationEnd := handleAnimationEnd true |} in
  createModalPropsAdapter None None state !! "maskClosable" = None /\
  createModalPropsAdapter None (Some ∅) state !! "maskClosable"
  ≠ Some (VData (DBool false)).
Proof. split; [reflexivity|]. by vm_compute. Qed.

(** C6, amended. The Drawer adapter sets [maskClosable] to false unless the
    caller supplies a value, which then wins. The Modal adapter passes on the
    value of the caller if there is one, otherwise the value of the
    provider's default Modal properties if there is one, otherwise nothing. *)
Theorem maskClosable_defaults (defaultProps props : option Props)
    (state : adapterState) :
  createDrawerPropsAdapter props state !! "maskClosable"
  = match props ≫= (.!! "maskClosable") with
    | Some v => Some v
    | None => Some (VData (DBool false))
    end /\
  createModalPropsAdapter defaultProps props state !! "maskClosable"
  = match props ≫= (.!! "maskClosable") with
    | Some v => Some v
    | None => defaultProps ≫= (.!! "maskClosable")
    end.
Proof.
  split; [apply drawer_maskClosable|apply modal_maskClosable].
Qed.

Section AnimationSignal.

Implicit Types (p : Props) (props defaultProps : option Props)
  (state : adapterState).

Lemma drawer_afterOpenChange props state :
  exists signal,
    createDrawerPropsAdapter props state !! "afterOpenChange" = Some (VFun signal) /\
    forall flag : bool,
      signal (DBool flag)
      = (optcall (getOpt props "afterOpenChange") (DBool flag) >>
         if flag then ret tt else onAnimationEnd state).
Proof.
  unfold createDrawerPropsAdapter, objectLiteral. simpl.
  match goal with |- context [truthy ?v] => destruct (truthy v) end;
    rewrite ?lookup_insert_ne by done; rewrite lookup_insert_eq;
    eexists; (split; [reflexivity|]); by intros [].
Qed.

Lemma modal_afterClose defaultProps props state :
  exists signal,
    createModalPropsAdapter defaultProps props state !! "afterClose"
    = Some (VFun signal) /\
    forall arg,
      signal arg
      = (optcall (getOpt props "afterClose") DUndefined >> onAnimationEnd state).
Proof.
  unfold createModalPropsAdapter, objectLiteral. simpl.
  match goal with |- context [truthy ?v] => destruct (truthy v) end;
    rewrite ?lookup_insert_ne by done; rewrite lookup_insert_eq;
    eexists; (split; [reflexivity|done]).
Qed.

(** Through the hook, for a Drawer whose caller has no [afterOpenChange]:
    the end of the opening animation changes nothing, the end of the closing
    animation unmounts. *)
Lemma drawer_signal_through_holder (DrawerComponent : component) (key : string)
    (s : overlayState) :
  renderEnable s = true ->
  getOpt (props s) "afterOpenChange" = VData DUndefined ->
  exists realProps signal,
    contextHolder DrawerComponent key createDrawerPropsAdapter true s
    = NElement DrawerComponent key realProps /\
    realProps !! "afterOpenChange" = Some (VFun signal) /\
    exec (signal (DBool true)) s = s /\
    renderEnable (exec (signal (DBool false)) s) = false.
Proof.
  intros Hmounted Hnone. unfold contextHolder. rewrite Hmounted. simpl.
  destruct (drawer_afterOpenChange (props s)
    {| st_open := open s; onClose := handleClose true;
       onAnimationEnd := handleAnimationEnd true |}) as (signal & Hk & Hs).
  eexists _, signal. split; [reflexivity|]. split; [exact Hk|].
  rewrite !Hs, Hnone. simpl. split; [by destruct s|done].
Qed.

End AnimationSignal.

(** C7. The [afterOpenChange] that the Drawer adapter hands to the component
    calls the caller's [afterOpenChange] with the flag and then
    [onAnimationEnd] only when the flag is false; the [afterClose] that the
    Modal adapter hands over calls the caller's [afterClose] and then
    [onAnimationEnd], whatever it is called with. When the caller has no
    such callbacks and [onAnimationEnd] only records its call, the Drawer
    signal makes no call for [true] and one for [false], the Modal signal
    one call. *)
Theorem animation_signal_forwarding (defaultProps props : option Props)
    (state : adapterState) :
  (exists signal,
     createDrawerPropsAdapter props state !! "afterOpenChange" = Some (VFun signal) /\
     forall flag : bool,
       signal (DBool flag)
       = (optcall (getOpt props "afterOpenChange") (DBool flag) >>
          if flag then ret tt else onAnimationEnd state)) /\
  (exists signal,
     createModalPropsAdapter defaultProps props state !! "afterClose"
     = Some (VFun signal) /\
     forall arg,
       signal arg
       = (optcall (getOpt props "afterClose") DUndefined >> onAnimationEnd state)) /\
  (forall (hd : string) (isOpen : bool) (onClose : M unit),
     let spied := {| st_open := isOpen; onClose := onClose;
                     onAnimationEnd := spy hd DUndefined |} in
     (exists signal,
        createDrawerPropsAdapter None spied !! "afterOpenChange" = Some (VFun signal) /\
        signal (DBool true) = ([], Some tt) /\
        signal (DBool false) = ([Call hd DUndefined], Some tt)) /\
     (exists signal,
        createModalPropsAdapter defaultProps None spied !! "afterClose"
        = Some (VFun signal) /\
        forall arg, signal arg = ([Call hd DUndefined], Some tt))).
Proof.
  split; [apply drawer_afterOpenChange|].
  split; [apply modal_afterClose|].
  intros hd isOpen onClose spied. split.
  - destruct (drawer_afterOpenChange None spied) as (signal & Hk & Hs).
    exists signal. split; [exact Hk|]. by rewrite !Hs.
  - destruct (modal_afterClose defaultProps None spied) as (signal & Hk & Hs).
    exists signal. split; [exact Hk|]. intros arg. by rewrite Hs.
Qed.

(** ** The global variant and the provider *)

(** C8. Without a provider around the caller, [useGlobalOverlay] throws the
    error that names the hook and the missing provider, and the render
    leaves the fiber as it found it: no state cell of the overlay has been
    created and no registration in the provider has been scheduled. *)
Theorem global_overlay_needs_provider (OverlayComponent : component)
    (options : UseOverlayOptions) (fb : fiber) :
  useGlobalOverlay None OverlayComponent options fb
  = (fb, inl missingProviderMessage) /\
  missingProviderMessage
  = "useGlobalOverlay must be used within an AntdOverlayProvider. Please wrap your application with <AntdOverlayProvider>.".
Proof. split; reflexivity. Qed.

(** With a provider the same render creates the cells of the overlay and
    schedules the registration of its holder. *)
Lemma global_overlay_in_provider (value : AntdOverlayContextValue)
    (OverlayComponent : component) (options : UseOverlayOptions) (id : string) :
  let fb := {| fiberId := id; cells := None; effects := [] |} in
  exists holder,
    useGlobalOverlay (Some value) OverlayComponent options fb
    = ({| fiberId := id; cells := Some initialState;
          effects := [{| effectRun := AddHolder holder;
                         effectCleanup := RemoveHolder holder |}] |},
       inr (openOverlay (animationOf options))) /\
    holder = NFragment (default "use-overlay" (keyPrefix options) +:+ "-" +:+ id).
Proof. eexists. split; reflexivity. Qed.

Lemma registerAll_app (ps prev : list node) : registerAll ps prev = prev ++ ps.
Proof.
  revert prev. induction ps as [|h ps IH]; intros prev; simpl.
  - by rewrite app_nil_r.
  - rewrite IH. unfold addHolder. by rewrite <- app_assoc.
Qed.

Lemma paint_provider (children : node) (holders : list node) :
  paint (AntdOverlayProvider children holders)
  = paint children ++ concat (map paint holders).
Proof. simpl. by rewrite app_nil_r. Qed.

(** The holder of an overlay is a single leaf, mounted or not. *)
Lemma paint_contextHolder c key (propsAdapter : adapter) animationRef s :
  paint (contextHolder c key propsAdapter animationRef s)
  = [contextHolder c key propsAdapter animationRef s].
Proof. unfold contextHolder. by destruct (renderEnable s). Qed.

(** C9. [addHolder] appends to the end of the holders; the provider returns
    its children followed by the holders, so what it renders is the children
    and then the holders in the order of their registration: for [P1], [P2],
    [P3] registered in this order, in the order [P1], [P2], [P3]. *)
Theorem registry_order_is_render_order (children : node) (prev ps : list node)
    (P1 P2 P3 : node) :
  (forall holder, addHolder holder prev = prev ++ [holder]) /\
  registerAll ps prev = prev ++ ps /\
  AntdOverlayProvider children (registerAll ps prev)
  = NProvider [children; NArray (prev ++ ps)] /\
  paint (AntdOverlayProvider children (registerAll ps prev))
  = paint children ++ concat (map paint prev) ++ concat (map paint ps) /\
  registerAll [P1; P2; P3] [] = [P1; P2; P3] /\
  paint (AntdOverlayProvider children (registerAll [P1; P2; P3] []))
  = paint children ++ paint P1 ++ paint P2 ++ paint P3.
Proof.
  split; [done|]. split; [apply registerAll_app|].
  split; [by rewrite registerAll_app|].
  split; [|split; [done|]].
  - by rewrite paint_provider, registerAll_app, map_app, concat_app.
  - rewrite paint_provider. simpl. by rewrite app_nil_r.
Qed.

(** * Further properties *)

(** ** The registry of holders *)

Section Registry.

Variable same : node -> node -> bool.

Implicit Types (holder other : node) (prev : list node).

Lemma removeHolder_app holder prev more :
  removeHolder same holder (prev ++ more)
  = removeHolder same holder prev ++ removeHolder same holder more.
Proof. apply List.filter_app. Qed.

Lemma removeHolder_absent holder prev :
  absent same holder prev = true -> removeHolder same holder prev = prev.
Proof.
  induction prev as [|h prev IH]; [done|]. simpl.
  intros [Hh Hprev]%andb_prop. rewrite Hh. by rewrite IH.
Qed.

Lemma removeHolder_is_absent holder prev :
  absent same holder (removeHolder same holder prev) = true.
Proof.
  induction prev as [|h prev IH]; [done|]. simpl.
  destruct (negb (same h holder)) eqn:Hh; [|exact IH].
  simpl. by rewrite Hh.
Qed.

Lemma removeHolder_sublist holder prev :
  removeHolder same holder prev `sublist_of` prev.
Proof.
  induction prev as [|h prev IH]; [done|]. simpl.
  destruct (negb (same h holder)); by constructor.
Qed.

Lemma removeHolder_keeps holder prev h :
  h ∈ prev -> same h holder = false -> h ∈ removeHolder same holder prev.
Proof.
  intros Hin Hh. induction Hin as [h prev|h h' prev Hin IH]; simpl.
  - rewrite Hh. simpl. left.
  - destruct (negb (same h' holder)); [right|]; by apply IH.
Qed.

Lemma removeHolder_self holder :
  same holder holder = true -> removeHolder same holder [holder] = [].
Proof. intros H. simpl. by rewrite H. Qed.

End Registry.

(** X1. [removeHolder] removes every holder identical to the given one, not
    only the first: none is left, the holders that are not identical all
    stay, in their order, and removing again changes nothing. *)
Theorem removeHolder_removes_all (same : node -> node -> bool)
    (holder : node) (prev : list node) :
  absent same holder (removeHolder same holder prev) = true /\
  removeHolder same holder prev `sublist_of` prev /\
  (forall h, h ∈ prev -> same h holder = false ->
             h ∈ removeHolder same holder prev) /\
  removeHolder same holder (removeHolder same holder prev)
  = removeHolder same holder prev.
Proof.
  split; [apply removeHolder_is_absent|].
  split; [apply removeHolder_sublist|].
  split; [intros h; apply removeHolder_keeps|].
  apply removeHolder_absent, removeHolder_is_absent.
Qed.

(** X2. Removing a holder that was never registered leaves the holders as
    they are. *)
Theorem removeHolder_unregistered (same : node -> node -> bool)
    (holder : node) (prev : list node) :
  absent same holder prev = true ->
  removeHolder same holder prev = prev.
Proof. apply removeHolder_absent. Qed.

Lemma removeHolder_unregistered_witness :
  removeHolder sameKey (NFragment "use-modal-r3")
    [NFragment "use-modal-r1"; NFragment "use-drawer-r2"]
  = [NFragment "use-modal-r1"; NFragment "use-drawer-r2"].
Proof.
  exact (removeHolder_unregistered sameKey (NFragment "use-modal-r3")
    [NFragment "use-modal-r1"; NFragment "use-drawer-r2"] eq_refl).
Defined.

(** X3. Registering a holder that is identical to itself and to no registered
    one, then removing it, gives back the holders there were. *)
Theorem addHolder_removeHolder (same : node -> node -> bool)
    (holder : node) (prev : list node) :
  same holder holder = true ->
  absent same holder prev = true ->
  removeHolder same holder (addHolder holder prev) = prev.
Proof.
  intros Hself Hprev. unfold addHolder.
  rewrite removeHolder_app, removeHolder_self by done.
  rewrite removeHolder_absent by done. apply app_nil_r.
Qed.

Lemma addHolder_removeHolder_witness :
  removeHolder sameKey (NFragment "use-modal-r3")
    (addHolder (NFragment "use-modal-r3") [NFragment "use-modal-r1"])
  = [NFragment "use-modal-r1"].
Proof.
  exact (addHolder_removeHolder sameKey (NFragment "use-modal-r3")
    [NFragment "use-modal-r1"] eq_refl eq_refl).
Defined.

(** X4. A holder registered twice is removed entirely by one [removeHolder]:
    no copy of it stays behind. *)
Theorem removeHolder_registered_twice (same : node -> node -> bool)
    (holder : node) (prev between : list node) :
  same holder holder = true ->
  removeHolder same holder (addHolder holder (addHolder holder prev ++ between))
  = removeHolder same holder (prev ++ between).
Proof.
  intros Hself. unfold addHolder.
  rewrite !removeHolder_app, removeHolder_self by done.
  by rewrite !app_nil_r.
Qed.

Lemma removeHolder_registered_twice_witness :
  removeHolder sameKey (NFragment "k")
    (addHolder (NFragment "k")
       (addHolder (NFragment "k") [NFragment "a"] ++ [NFragment "b"]))
  = [NFragment "a"; NFragment "b"].
Proof.
  exact (removeHolder_registered_twice sameKey (NFragment "k")
    [NFragment "a"] [NFragment "b"] eq_refl).
Defined.

(** X5. Registrations and removals of different holders do not disturb each
    other: removing one holder commutes with registering another that is not
    identical to it, and two removals commute. *)
Theorem registry_operations_commute (same : node -> node -> bool)
    (holder other : node) (prev : list node) :
  same other holder = false ->
  removeHolder same holder (addHolder other prev)
  = addHolder other (removeHolder same holder prev) /\
  removeHolder same holder (removeHolder same other prev)
  = removeHolder same other (removeHolder same holder prev).
Proof.
  intros Hother. split.
  - unfold addHolder. rewrite removeHolder_app. simpl. by rewrite Hother.
  - induction prev as [|h prev IH]; [done|]. simpl.
    destruct (negb (same h other)) eqn:Ho, (negb (same h holder)) eqn:Hh;
      simpl; rewrite ?Ho, ?Hh, IH; done.
Qed.

Lemma registry_operations_commute_witness :
  removeHolder sameKey (NFragment "a")
    (addHolder (NFragment "b") [NFragment "a"; NFragment "c"])
  = addHolder (NFragment "b")
      (removeHolder sameKey (NFragment "a") [NFragment "a"; NFragment "c"]).
Proof.
  exact (proj1 (registry_operations_commute sameKey (NFragment "a")
    (NFragment "b") [NFragment "a"; NFragment "c"] eq_refl)).
Defined.

(** X6. Removing a registered holder and registering its replacement puts the
    replacement last, wherever the old holder was: the holders before and
    after it keep their order. *)
Theorem replaced_holder_moves_last (same : node -> node -> bool)
    (old new : node) (before after : list node) :
  same old old = true ->
  absent same old before = true ->
  absent same old after = true ->
  addHolder new (removeHolder same old (before ++ old :: after))
  = before ++ after ++ [new].
Proof.
  intros Hself Hbefore Hafter. unfold addHolder.
  rewrite removeHolder_app. simpl. rewrite Hself. simpl.
  rewrite !removeHolder_absent by done. by rewrite <- app_assoc.
Qed.

Lemma replaced_holder_moves_last_witness :
  addHolder (NElement "Dialog" "a" ∅)
    (removeHolder sameKey (NFragment "a")
       ([NFragment "x"] ++ NFragment "a" :: [NFragment "y"]))
  = [NFragment "x"] ++ [NFragment "y"] ++ [NElement "Dialog" "a" ∅].
Proof.
  exact (replaced_holder_moves_last sameKey (NFragment "a")
    (NElement "Dialog" "a" ∅) [NFragment "x"] [NFragment "y"]
    eq_refl eq_refl eq_refl).
Defined.

(** ** More on the lifecycle *)

(** X7. Closing twice is closing once, with and without animation, and so is
    signalling the end of the animation twice. *)
Theorem close_idempotent (animationRef : bool) (s : overlayState) :
  exec (handleClose animationRef) (exec (handleClose animationRef) s)
  = exec (handleClose animationRef) s /\
  exec (handleAnimationEnd animationRef)
    (exec (handleAnimationEnd animationRef) s)
  = exec (handleAnimationEnd animationRef) s.
Proof. by destruct animationRef. Qed.

(** X8. A controller is not tied to the session whose opener call returned
    it: every call of the opener returns the same two functions, so after a
    second call the controller of the first one updates and closes the
    session of the second. *)
Theorem stale_controller_acts_on_current_session (animationRef : bool)
    (first second : option Props) (newProps : Props) (s : overlayState) :
  exists stale current,
    outcome (openOverlay animationRef first) = Some stale /\
    outcome (openOverlay animationRef second) = Some current /\
    stale = current /\
    let session :=
      exec (openOverlay animationRef second)
        (exec (openOverlay animationRef first) s) in
    props session = second /\
    props (exec (update stale newProps) session) = Some newProps /\
    exec (close stale) session = exec (handleClose animationRef) session /\
    (if animationRef
     then open (exec (close stale) session) = false
     else renderEnable (exec (close stale) session) = false).
Proof.
  exists (overlayController animationRef), (overlayController animationRef).
  by destruct animationRef.
Qed.

Section Runs.

Implicit Types (s : overlayState) (o : op) (ops : list op).

Lemma run_keeps_props animationRef ops : forall s,
  forallb carriesNoProps ops = true ->
  props (run animationRef ops s) = props s.
Proof.
  induction ops as [|o ops IH]; intros s Hops; [done|].
  simpl in Hops. apply andb_prop in Hops as [Ho Hops].
  rewrite run_cons, IH by done.
  destruct o; try done; by destruct animationRef.
Qed.

Lemma unanimated_run_open ops : forall s,
  open (run false ops s) = open s || existsb isOpen ops.
Proof.
  induction ops as [|o ops IH]; intros s.
  - simpl. by rewrite orb_false_r.
  - rewrite run_cons, IH. destruct o; simpl; try done.
    by rewrite orb_true_r.
Qed.

End Runs.

(** X9. Closing never clears the stored properties: along any sequence of
    close requests and animation signals, with or without animation, they
    stay what they were. *)
Theorem close_keeps_properties (animationRef : bool) (ops : list op)
    (s : overlayState) :
  forallb carriesNoProps ops = true ->
  props (run animationRef ops s) = props s.
Proof. apply run_keeps_props. Qed.

Lemma close_keeps_properties_witness :
  let p : Props := {["title" := VData (DStr "x")]} in
  props (run true [RequestClose; NotifyAnimationDone]
           {| open := true; renderEnable := true; props := Some p |})
  = Some p.
Proof.
  exact (close_keeps_properties true [RequestClose; NotifyAnimationDone]
    {| open := true; renderEnable := true;
       props := Some {["title" := VData (DStr "x")]} |} eq_refl).
Defined.

(** X10. Without animation the flag [open] is never set back to false: after
    any sequence of operations it is true exactly if it was true before or
    the sequence contains a call of the opener. *)
Theorem unanimated_open_flag_never_reset (ops : list op) (s : overlayState) :
  open (run false ops s) = open s || existsb isOpen ops.
Proof. apply unanimated_run_open. Qed.

(** X11. The holder carries the key it was given whether the overlay is
    mounted or not, and the hooks build that key from their prefix and the
    identifier of the call site only: the state of the overlay and the
    options other than the prefix do not enter it. The keys of a Modal and of
    a Drawer differ even for equal identifiers. *)
Theorem holder_key_stable (c : component) (key : string)
    (propsAdapter : adapter) (animationRef : bool) (s : overlayState)
    (options : UseOverlayOptions) (provider : option AntdOverlayContextValue)
    (animation : option bool) (fb : fiber) :
  nodeKey (contextHolder c key propsAdapter animationRef s) = Some key /\
  holderOf (useOverlay c options fb) ≫= nodeKey
  = Some (default "use-overlay" (keyPrefix options) +:+ "-" +:+ fiberId fb) /\
  holderOf (useModal provider c animation fb) ≫= nodeKey
  = Some ("use-modal-" +:+ fiberId fb) /\
  holderOf (useDrawer c animation fb) ≫= nodeKey
  = Some ("use-drawer-" +:+ fiberId fb) /\
  "use-modal-" +:+ fiberId fb ≠ "use-drawer-" +:+ fiberId fb.
Proof.
  assert (Hkey : forall key' ad a s',
    nodeKey (contextHolder c key' ad a s') = Some key').
  { intros key' ad a s'. unfold contextHolder. by destruct (renderEnable s'). }
  split; [apply Hkey|].
  unfold holderOf, useModal, useDrawer, useOverlay. simpl. rewrite !Hkey.
  repeat split; done.
Qed.

(** X12. What the caller sees of a close, for each of the three adapters.
    With animation, the holder of a mounted overlay is after [handleClose]
    still the component, now with [open] false, and it becomes the empty
    fragment at the end of the animation; without animation it is the empty
    fragment right after [handleClose]. *)
Theorem holder_during_close (OverlayComponent : component) (key : string)
    (k : adapterKind) (s : overlayState) :
  renderEnable s = true ->
  (exists realProps,
     contextHolder OverlayComponent key (adapterOf k) true
       (exec (handleClose true) s)
     = NElement OverlayComponent key realProps /\
     realProps !! "open" = Some (VData (DBool false))) /\
  contextHolder OverlayComponent key (adapterOf k) true
    (exec (handleAnimationEnd true) (exec (handleClose true) s))
  = NFragment key /\
  contextHolder OverlayComponent key (adapterOf k) false
    (exec (handleClose false) s)
  = NFragment key.
Proof.
  intros Hmounted. split; [|done].
  unfold contextHolder. simpl. rewrite Hmounted. simpl.
  eexists. split; [reflexivity|].
  destruct k as [|defaultProps|]; simpl;
    [unfold defaultPropsAdapter
    |unfold createModalPropsAdapter
    |unfold createDrawerPropsAdapter];
    unfold objectLiteral; simpl;
    match goal with |- context [truthy ?v] => destruct (truthy v) end;
    rewrite ?lookup_insert_ne by done; by rewrite lookup_insert_eq.
Qed.

Lemma holder_during_close_witness :
  contextHolder "Dialog" "use-modal-r1" (adapterOf (ModalAdapter None)) false
    (exec (handleClose false)
       {| open := true; renderEnable := true; props := None |})
  = NFragment "use-modal-r1".
Proof.
  exact (proj2 (proj2 (holder_during_close "Dialog" "use-modal-r1"
    (ModalAdapter None)
    {| open := true; renderEnable := true; props := None |} eq_refl))).
Defined.

(** ** More on the adapters *)

Section AdapterFields.

Implicit Types (p : Props) (props defaultProps : option Props)
  (state : adapterState) (k : adapterKind).

(** The last step of each adapter leaves every key but [customOk] alone. *)
Ltac past_customOk :=
  unfold defaultPropsAdapter, createModalPropsAdapter,
    createDrawerPropsAdapter, objectLiteral; simpl;
  match goal with |- context [truthy ?v] => destruct (truthy v) end;
  rewrite ?lookup_insert_ne by done.

Lemma adapter_open k props state :
  adapterOf k props state !! "open" = Some (VData (DBool (st_open state))).
Proof. destruct k; simpl; past_customOk; by rewrite lookup_insert_eq. Qed.

Lemma adapter_customClose k props state :
  exists f, adapterOf k props state !! "customClose" = Some (VFun f) /\
            forall arg, f arg = onClose state.
Proof.
  destruct k; simpl; past_customOk; rewrite lookup_insert_eq;
    eexists; (split; [reflexivity|done]).
Qed.

Lemma default_passes_on props state (key : string) :
  key ≠ "open" -> key ≠ "customClose" -> key ≠ "customOk" ->
  defaultPropsAdapter props state !! key = props ≫= (.!! key).
Proof.
  intros H1 H2 H3. past_customOk;
    rewrite lookup_spread_union, lookup_empty; by destruct (props ≫= _).
Qed.

Lemma drawer_passes_on props state (key : string) :
  key ≠ "open" -> key ≠ "customClose" -> key ≠ "customOk" ->
  key ≠ "afterOpenChange" -> key ≠ "maskClosable" ->
  createDrawerPropsAdapter props state !! key = props ≫= (.!! key).
Proof.
  intros H1 H2 H3 H4 H5. past_customOk;
    rewrite lookup_spread_union, lookup_insert_ne, lookup_empty by done;
    by destruct (props ≫= _).
Qed.

Lemma modal_passes_on defaultProps props state (key : string) :
  key ≠ "open" -> key ≠ "customClose" -> key ≠ "customOk" ->
  key ≠ "afterClose" ->
  createModalPropsAdapter defaultProps props state !! key
  = match props ≫= (.!! key) with
    | Some v => Some v
    | None => defaultProps ≫= (.!! key)
    end.
Proof.
  intros H1 H2 H3 H4. past_customOk;
    rewrite !lookup_spread_union, lookup_empty;
    by destruct (defaultProps ≫= _).
Qed.

(** The [customOk] that an adapter finds in the object it has built. *)
Lemma getOpt_truthy_None props (key : string) :
  props ≫= (.!! key) = None -> truthy (getOpt props key) = false.
Proof. destruct props as [p|]; [|done]. simpl. unfold get. by intros ->. Qed.

Lemma default_keeps_falsy props state :
  truthy (getOpt props "customOk") = false ->
  defaultPropsAdapter props state !! "customOk" = props ≫= (.!! "customOk").
Proof.
  intros Hfalsy.
  unfold defaultPropsAdapter, objectLiteral. simpl.
  assert (Hlook : forall v1 v2,
    (<["customClose" := v1]> (<["open" := v2]> (default ∅ props ∪ ∅)) : Props)
      !! "customOk" = props ≫= (.!! "customOk")).
  { intros v1 v2. rewrite !lookup_insert_ne by done.
    rewrite lookup_spread_union, lookup_empty. by destruct (props ≫= _). }
  unfold get at 1. rewrite Hlook.
  replace (default (VData DUndefined) (props ≫= (.!! "customOk")))
    with (getOpt props "customOk") by by destruct props.
  by rewrite Hfalsy, Hlook.
Qed.

End AdapterFields.

Section FalsyConfirm.

Implicit Types (props defaultProps : option Props) (state : adapterState).

Lemma drawer_keeps_falsy props state :
  truthy (getOpt props "customOk") = false ->
  createDrawerPropsAdapter props state !! "customOk" = props ≫= (.!! "customOk").
Proof.
  intros Hfalsy.
  unfold createDrawerPropsAdapter, objectLiteral. simpl.
  assert (Hlook : forall v1 v2 v3 v4,
    (<["afterOpenChange" := v1]> (<["customClose" := v2]> (<["open" := v3]>
       (default ∅ props ∪ <["maskClosable" := v4]> ∅))) : Props)
      !! "customOk" = props ≫= (.!! "customOk")).
  { intros v1 v2 v3 v4. rewrite !lookup_insert_ne by done.
    rewrite lookup_spread_union, lookup_insert_ne, lookup_empty by done.
    by destruct (props ≫= _). }
  unfold get at 1. rewrite Hlook.
  replace (default (VData DUndefined) (props ≫= (.!! "customOk")))
    with (getOpt props "customOk") by by destruct props.
  by rewrite Hfalsy, Hlook.
Qed.

Lemma modal_keeps_falsy defaultProps props state :
  truthy (getOpt props "customOk") = false ->
  truthy (getOpt defaultProps "customOk") = false ->
  createModalPropsAdapter defaultProps props state !! "customOk"
  = match props ≫= (.!! "customOk") with
    | Some v => Some v
    | None => defaultProps ≫= (.!! "customOk")
    end.
Proof.
  intros Hfalsy Hdefault.
  unfold createModalPropsAdapter, objectLiteral. simpl.
  assert (Hlook : forall v1 v2 v3,
    (<["afterClose" := v1]> (<["customClose" := v2]> (<["open" := v3]>
       (default ∅ props ∪ (default ∅ defaultProps ∪ ∅)))) : Props)
      !! "customOk"
    = match props ≫= (.!! "customOk") with
      | Some v => Some v
      | None => defaultProps ≫= (.!! "customOk")
      end).
  { intros v1 v2 v3. rewrite !lookup_insert_ne by done.
    rewrite !lookup_spread_union, lookup_empty.
    by destruct (defaultProps ≫= _). }
  unfold get at 1. rewrite Hlook.
  assert (Hmerged : truthy (default (VData DUndefined)
    match props ≫= (.!! "customOk") with
    | Some v => Some v
    | None => defaultProps ≫= (.!! "customOk")
    end) = false).
  { destruct props as [p|], defaultProps as [d|]; simpl in *;
      unfold get in *; try done; by destruct (p !! "customOk"). }
  by rewrite Hmerged, Hlook.
Qed.

End FalsyConfirm.

(** X13. The caller cannot override what the adapters inject: whatever the
    properties of the caller and the defaults of the provider hold under
    [open] and [customClose], each of the three adapters hands over [open]
    as the state of the hook and a [customClose] that does what [onClose]
    does. *)
Theorem injected_fields_win (k : adapterKind) (props : option Props)
    (state : adapterState) :
  adapterOf k props state !! "open" = Some (VData (DBool (st_open state))) /\
  exists f, adapterOf k props state !! "customClose" = Some (VFun f) /\
            forall arg, f arg = onClose state.
Proof. split; [apply adapter_open|apply adapter_customClose]. Qed.

(** X14. Every other property reaches the component as the caller gave it:
    under a key that no adapter writes, the default and the Drawer adapter
    hand over the value of the caller or nothing, the Modal adapter the value
    of the caller, else the default of the provider, else nothing. *)
Theorem other_properties_pass_through (defaultProps props : option Props)
    (state : adapterState) (key : string) :
  key ≠ "open" -> key ≠ "customClose" -> key ≠ "customOk" ->
  key ≠ "afterClose" -> key ≠ "afterOpenChange" -> key ≠ "maskClosable" ->
  defaultPropsAdapter props state !! key = props ≫= (.!! key) /\
  createDrawerPropsAdapter props state !! key = props ≫= (.!! key) /\
  createModalPropsAdapter defaultProps props state !! key
  = match props ≫= (.!! key) with
    | Some v => Some v
    | None => defaultProps ≫= (.!! key)
    end.
Proof.
  intros H1 H2 H3 H4 H5 H6.
  split; [by apply default_passes_on|].
  split; [by apply drawer_passes_on|by apply modal_passes_on].
Qed.

Lemma other_properties_pass_through_witness :
  let state := {| st_open := true; onClose := handleClose true;
                  onAnimationEnd := handleAnimationEnd true |} in
  let props : option Props := Some {["title" := VData (DStr "x")]} in
  let defaults : option Props := Some {["title" := VData (DStr "d")]} in
  createModalPropsAdapter defaults props state !! "title"
  = Some (VData (DStr "x")).
Proof.
  exact (proj2 (proj2 (other_properties_pass_through
    (Some {["title" := VData (DStr "d")]})
    (Some {["title" := VData (DStr "x")]})
    {| st_open := true; onClose := handleClose true;
       onAnimationEnd := handleAnimationEnd true |} "title"
    ltac:(done) ltac:(done) ltac:(done) ltac:(done) ltac:(done) ltac:(done)))).
Defined.

(** X15. A [customOk] is wrapped only if it is truthy. When neither the
    caller nor the provider gives a truthy one, the component receives under
    [customOk] what it was given (nothing, or the falsy value): no confirm
    callback is made up. *)
Theorem falsy_confirm_not_wrapped (defaultProps props : option Props)
    (state : adapterState) :
  truthy (getOpt props "customOk") = false ->
  truthy (getOpt defaultProps "customOk") = false ->
  defaultPropsAdapter props state !! "customOk" = props ≫= (.!! "customOk") /\
  createDrawerPropsAdapter props state !! "customOk" = props ≫= (.!! "customOk") /\
  createModalPropsAdapter defaultProps props state !! "customOk"
  = match props ≫= (.!! "customOk") with
    | Some v => Some v
    | None => defaultProps ≫= (.!! "customOk")
    end.
Proof.
  intros Hfalsy Hdefault.
  split; [by apply default_keeps_falsy|].
  split; [by apply drawer_keeps_falsy|by apply modal_keeps_falsy].
Qed.

Lemma falsy_confirm_not_wrapped_witness :
  let state := {| st_open := true; onClose := handleClose true;
                  onAnimationEnd := handleAnimationEnd true |} in
  defaultPropsAdapter (Some {["title" := VData (DStr "x")]}) state !! "customOk"
  = None /\
  createDrawerPropsAdapter (Some {["customOk" := VData DNull]}) state !! "customOk"
  = Some (VData DNull).
Proof.
  split.
  - exact (proj1 (falsy_confirm_not_wrapped None
      (Some {["title" := VData (DStr "x")]})
      {| st_open := true; onClose := handleClose true;
         onAnimationEnd := handleAnimationEnd true |} eq_refl eq_refl)).
  - exact (proj1 (proj2 (falsy_confirm_not_wrapped None
      (Some {["customOk" := VData DNull]})
      {| st_open := true; onClose := handleClose true;
         onAnimationEnd := handleAnimationEnd true |} eq_refl eq_refl))).
Defined.

(** X16. There is no [finally] around the confirm callback: when the
    callback of the caller throws, the wrapped [customOk] of each adapter
    throws too, having done what the callback did before it threw and
    nothing more; [onClose] is not called and the overlay stays as it is. *)
Theorem throwing_confirm_does_not_close (k : adapterKind) (p : Props)
    (customOk : fn) (state : adapterState) (value : data) :
  outcome (customOk value) = None ->
  exists wrapped,
    adapterOf k (Some (<["customOk" := VFun customOk]> p)) state !! "customOk"
    = Some (VFun wrapped) /\
    outcome (wrapped value) = None /\
    trace (wrapped value) = trace (customOk value).
Proof.
  intros Hthrows.
  destruct (wrapped_customOk k p customOk state) as (wrapped & Hk & Hw).
  exists wrapped. split; [exact Hk|]. rewrite Hw.
  destruct (customOk value) as [t [[]|]]; by simplify_eq/=.
Qed.

Lemma throwing_confirm_does_not_close_witness :
  let failing : fn := fun value => spy "validate" value >> throw in
  let state := {| st_open := true; onClose := handleClose true;
                  onAnimationEnd := handleAnimationEnd true |} in
  exists wrapped,
    adapterOf DrawerAdapter (Some (<["customOk" := VFun failing]> ∅)) state
      !! "customOk" = Some (VFun wrapped) /\
    outcome (wrapped (DNum 7)) = None /\
    trace (wrapped (DNum 7)) = [Call "validate" (DNum 7)].
Proof.
  exact (throwing_confirm_does_not_close DrawerAdapter ∅
    (fun value => spy "validate" value >> throw)
    {| st_open := true; onClose := handleClose true;
       onAnimationEnd := handleAnimationEnd true |} (DNum 7) eq_refl).
Defined.

(** X17. The defaults of the provider are treated unevenly by the Modal
    adapter. When the caller gives neither callback, a [customOk] among the
    defaults is wrapped like one of the caller (it runs, then [onClose]),
    but an [afterClose] among the defaults is never called: the [afterClose]
    handed to the component calls [onAnimationEnd] only. *)
Theorem modal_default_callbacks (d : Props) (confirm closed : fn)
    (props : option Props) (state : adapterState) :
  props ≫= (.!! "customOk") = None ->
  props ≫= (.!! "afterClose") = None ->
  let defaultProps :=
    Some (<["customOk" := VFun confirm]> (<["afterClose" := VFun closed]> d)) in
  (exists wrapped,
     createModalPropsAdapter defaultProps props state !! "customOk"
     = Some (VFun wrapped) /\
     forall value, wrapped value = (confirm value >> onClose state)) /\
  (exists signal,
     createModalPropsAdapter defaultProps props state !! "afterClose"
     = Some (VFun signal) /\
     forall arg, signal arg = onAnimationEnd state).
Proof.
  intros HnoOk HnoClose defaultProps. split.
  - unfold createModalPropsAdapter, objectLiteral. simpl.
    assert (Hlook : forall v1 v2 v3,
      (<["afterClose" := v1]> (<["customClose" := v2]> (<["open" := v3]>
         (default ∅ props ∪ (default ∅ defaultProps ∪ ∅)))) : Props)
        !! "customOk" = Some (VFun confirm)).
    { intros v1 v2 v3. rewrite !lookup_insert_ne by done.
      rewrite !lookup_spread_union, HnoOk. simpl.
      by rewrite lookup_insert_eq. }
    unfold get. rewrite !Hlook. simpl. rewrite lookup_insert_eq.
    eexists. split; [reflexivity|done].
  - destruct (modal_afterClose defaultProps props state) as (signal & Hk & Hs).
    exists signal. split; [exact Hk|]. intros arg. rewrite Hs.
    replace (getOpt props "afterClose") with (VData DUndefined).
    + apply bind_ret_l.
    + destruct props as [p|]; [|done]. simpl in *. unfold get.
      by rewrite HnoClose.
Qed.

Lemma modal_default_callbacks_witness :
  let state := {| st_open := true; onClose := spy "close" DUndefined;
                  onAnimationEnd := spy "unmount" DUndefined |} in
  let defaultProps : option Props :=
    Some (<["customOk" := VFun (spy "ok")]>
            (<["afterClose" := VFun (spy "closed")]> ∅)) in
  exists signal,
    createModalPropsAdapter defaultProps None state !! "afterClose"
    = Some (VFun signal) /\
    forall arg, signal arg = ([Call "unmount" DUndefined], Some tt).
Proof.
  exact (proj2 (modal_default_callbacks ∅ (spy "ok") (spy "closed") None
    {| st_open := true; onClose := spy "close" DUndefined;
       onAnimationEnd := spy "unmount" DUndefined |} eq_refl eq_refl)).
Defined.

(** ** More on the global variants *)

(** X18. The global hooks for Modal and Drawer need the provider like
    [useGlobalOverlay]: without one they throw its error, having created no
    state cell of the overlay and scheduled no registration. The local
    [useModal] does not need it: without a provider it renders as under a
    provider that has no default Modal properties. *)
Theorem global_modal_drawer_need_provider (c : component)
    (animation : option bool) (fb : fiber) (holders : list node)
    (defaultDrawerProps : option Props) :
  useGlobalModal None c animation fb = (fb, inl missingProviderMessage) /\
  useGlobalDrawer None c animation fb = (fb, inl missingProviderMessage) /\
  useModal None c animation fb
  = useModal (Some (providerValue holders None defaultDrawerProps)) c animation fb.
Proof. by repeat split. Qed.

(** X19. Of the value of the provider only the default Modal properties
    reach an overlay, and only a Modal: the render of [useGlobalDrawer] is
    the same under any two providers, so the default Drawer properties of
    the provider are never used, and the renders of [useModal] and
    [useGlobalModal] are the same under two providers with the same default
    Modal properties. *)
Theorem provider_defaults_reach_modal_only (v1 v2 : AntdOverlayContextValue)
    (c : component) (animation : option bool) (fb : fiber) :
  useGlobalDrawer (Some v1) c animation fb
  = useGlobalDrawer (Some v2) c animation fb /\
  useModal (Some v1) c animation fb
  = useModal (Some (providerValue [] (defaultModalProps v1) None)) c animation fb /\
  useGlobalModal (Some v1) c animation fb
  = useGlobalModal (Some (providerValue [] (defaultModalProps v1) None))
      c animation fb.
Proof. by repeat split. Qed.

(** X20. Under a provider a render of [useGlobalOverlay] keeps the state
    cells of the overlay (it creates them on the first render) and hands one
    more effect to React. Running it appends the holder of the overlay, the
    one [useOverlay] returns, to the holders of the provider, which then
    renders it last: after its children and the holders before it. *)
Theorem global_holder_registration (same : node -> node -> bool)
    (value : AntdOverlayContextValue) (c : component)
    (options : UseOverlayOptions) (fb : fiber)
    (children : node) (registered : list node) :
  exists fb' opener e holder,
    useGlobalOverlay (Some value) c options fb = (fb', inr opener) /\
    cells fb' = Some (default initialState (cells fb)) /\
    effects fb' = effects fb ++ [e] /\
    holderOf (useOverlay c options fb) = Some holder /\
    runEffect same e registered = registered ++ [holder] /\
    paint (AntdOverlayProvider children (runEffect same e registered))
    = paint children ++ concat (map paint registered) ++ [holder].
Proof.
  unfold useGlobalOverlay, useOverlay, holderOf. simpl.
  eexists _, _, _, _. repeat (split; [reflexivity|]).
  unfold runEffect. simpl. unfold addHolder.
  rewrite map_app, concat_app. simpl.
  by rewrite paint_contextHolder, !app_nil_r.
Qed.

(** X21. The cleanup of that effect undoes it: when the holder is identical
    to itself and to none of the registered holders, running the effect and
    then its cleanup leaves the holders of the provider as they were. *)
Theorem global_holder_cleanup (same : node -> node -> bool)
    (value : AntdOverlayContextValue) (c : component)
    (options : UseOverlayOptions) (fb : fiber)
    (holder : node) (registered : list node) :
  holderOf (useOverlay c options fb) = Some holder ->
  same holder holder = true ->
  absent same holder registered = true ->
  exists fb' opener e,
    useGlobalOverlay (Some value) c options fb = (fb', inr opener) /\
    effects fb' = effects fb ++ [e] /\
    cleanupEffect same e (runEffect same e registered) = registered.
Proof.
  unfold useGlobalOverlay, useOverlay, holderOf. simpl.
  intros [= <-] Hself Habsent.
  eexists _, _, _. repeat (split; [reflexivity|]).
  unfold cleanupEffect, runEffect. simpl. unfold addHolder.
  rewrite removeHolder_app, removeHolder_self by done.
  rewrite removeHolder_absent by done. apply app_nil_r.
Qed.

Lemma global_holder_cleanup_witness :
  let fb := {| fiberId := "r3"; cells := None; effects := [] |} in
  exists fb' opener e,
    useGlobalOverlay (Some (providerValue [] None None)) "Dialog" noOptions fb
    = (fb', inr opener) /\
    effects fb' = effects fb ++ [e] /\
    cleanupEffect sameKey e (runEffect sameKey e [NFragment "use-modal-r1"])
    = [NFragment "use-modal-r1"].
Proof.
  exact (global_holder_cleanup sameKey (providerValue [] None None) "Dialog"
    noOptions {| fiberId := "r3"; cells := None; effects := [] |}
    (NFragment "use-overlay-r3") [NFragment "use-modal-r1"]
    eq_refl eq_refl eq_refl).
Defined.

(** ** The generated hooks *)




(** ** End to end *)

(** X23. Through the hook, for each of the three adapters and a confirm
    callback of the caller that returns normally on the value: the [customOk]
    that the holder of a mounted overlay hands to the component returns
    normally, does what the callback does and then what [handleClose] does
    (so it calls the functions of the caller exactly as the callback does),
    and leaves the lifecycle where [handleClose] leaves it after the updates
    of the callback, if any. *)
Theorem returning_confirm_through_holder (OverlayComponent : component)
    (key : string) (k : adapterKind) (p : Props) (customOk : fn)
    (animationRef : bool) (s : overlayState) (value : data) :
  renderEnable s = true ->
  props s = Some (<["customOk" := VFun customOk]> p) ->
  outcome (customOk value) = Some tt ->
  exists realProps wrapped,
    contextHolder OverlayComponent key (adapterOf k) animationRef s
    = NElement OverlayComponent key realProps /\
    realProps !! "customOk" = Some (VFun wrapped) /\
    outcome (wrapped value) = Some tt /\
    trace (wrapped value)
    = trace (customOk value) ++ trace (handleClose animationRef) /\
    (forall h, callsTo h (trace (wrapped value))
               = callsTo h (trace (customOk value))) /\
    exec (wrapped value) s
    = exec (handleClose animationRef) (exec (customOk value) s).
Proof.
  intros Hmounted Hprops Hreturns.
  unfold contextHolder. rewrite Hmounted, Hprops. simpl.
  destruct (wrapped_customOk k p customOk
    {| st_open := open s; onClose := handleClose animationRef;
       onAnimationEnd := handleAnimationEnd animationRef |})
    as (wrapped & Hk & Hw).
  eexists _, wrapped. split; [reflexivity|]. split; [exact Hk|].
  rewrite Hw, bind_returns by done. simpl.
  split; [by destruct animationRef|]. split; [reflexivity|]. split.
  - intros h. unfold trace at 1. simpl. rewrite callsTo_app.
    destruct animationRef; simpl; by rewrite app_nil_r.
  - unfold exec, commit, trace at 1. simpl. by rewrite foldl_app.
Qed.

Lemma returning_confirm_through_holder_witness :
  let s := {| open := true; renderEnable := true;
              props := Some (<["customOk" := VFun (spy "saved")]> ∅) |} in
  exists realProps wrapped,
    contextHolder "Dialog" "use-modal-r1" (adapterOf (ModalAdapter None)) true s
    = NElement "Dialog" "use-modal-r1" realProps /\
    realProps !! "customOk" = Some (VFun wrapped) /\
    outcome (wrapped (DStr "y")) = Some tt /\
    trace (wrapped (DStr "y")) = [Call "saved" (DStr "y"); SetOpen false] /\
    (forall h, callsTo h (trace (wrapped (DStr "y")))
               = callsTo h [Call "saved" (DStr "y")]) /\
    exec (wrapped (DStr "y")) s = exec (handleClose true) s.
Proof.
  exact (returning_confirm_through_holder "Dialog" "use-modal-r1"
    (ModalAdapter None) ∅ (spy "saved") true
    {| open := true; renderEnable := true;
       props := Some (<["customOk" := VFun (spy "saved")]> ∅) |}
    (DStr "y") eq_refl eq_refl eq_refl).
Defined.

(** X24 is [drawer_signal_through_holder], here on a Drawer opened without
    properties. *)
Lemma drawer_signal_through_holder_witness :
  let s := {| open := true; renderEnable := true; props := None |} in
  exists realProps signal,
    contextHolder "Panel" "use-drawer-r2" createDrawerPropsAdapter true s
    = NElement "Panel" "use-drawer-r2" realProps /\
    realProps !! "afterOpenChange" = Some (VFun signal) /\
    exec (signal (DBool true)) s = s /\
    renderEnable (exec (signal (DBool false)) s) = false.
Proof.
  exact (drawer_signal_through_holder "Panel" "use-drawer-r2"
    {| open := true; renderEnable := true; props := None |} eq_refl eq_refl).
Defined.

(** X25. From render to render. Before the opener has been called the
    holder that [useOverlay] returns is the empty fragment. Once the updates
    requested by a call of the opener are applied, the next render returns
    the component under the same key, with the properties that the adapter
    makes of the arguments of that call and of [open] true. *)
Theorem open_then_render (c : component) (options : UseOverlayOptions)
    (id : string) (initializeProps : option Props) :
  let fresh := {| fiberId := id; cells := None; effects := [] |} in
  let key := default "use-overlay" (keyPrefix options) +:+ "-" +:+ id in
  let propsAdapter := default defaultPropsAdapter (propsAdapter options) in
  exists mounted openOverlay,
    useOverlay c options fresh = (mounted, inr (openOverlay, NFragment key)) /\
    holderOf (useOverlay c options
                (commitToFiber (openOverlay initializeProps) mounted))
    = Some (NElement c key (propsAdapter initializeProps {|
        st_open := true;
        onClose := handleClose (animationOf options);
        onAnimationEnd := handleAnimationEnd (animationOf options) |})).
Proof. eexists _, _. split; reflexivity. Qed.
